(** * The inference core-ops builder of DeepSpeed

    A shallow embedding of [op_builder/inference_core_ops.py] (class
    [InferenceCoreBuilder]) and the properties of its compatibility check,
    its compute-capability filter, its path prefix and its source, include
    and link-flag lists.

    Python strings are modelled as [string], one [ascii] per code point
    (code points below 256); Python integers as [Z]; Python lists as
    [list].  Every list the class builds is a fresh object of the call that
    builds it (a list display or a comprehension), so lists are values here
    and no store is needed.  A method is a computation over the warning
    channel that either returns a value or raises an exception. *)

From Stdlib Require Import List String Ascii ZArith Bool Arith Lia.
Import ListNotations.
Local Open Scope string_scope.
Local Open Scope list_scope.

Infix "+++" := String.append (right associativity, at level 60).

(** ** The fragment of Python the class uses *)

Module Py.

(** The exceptions that the modelled code can raise. *)
Inductive exn : Type :=
| ImportError
| NameError (name : string)
| IndexError
| ValueError.

Inductive outcome (A : Type) : Type :=
| Return (a : A)
| Raise (e : exn).
Arguments Return {A} a.
Arguments Raise {A} e.

(** The diagnostic channel: the messages passed to [self.warning], oldest
    first. *)
Definition log : Type := list string.

(** A method body: it runs from a state of the channel, returns or
    raises, and leaves a state of the channel. *)
Definition M (A : Type) : Type := log -> outcome A * log.

Definition ret {A} (a : A) : M A := fun l => (Return a, l).
Definition raise {A} (e : exn) : M A := fun l => (Raise e, l).
Definition lift {A} (o : outcome A) : M A := fun l => (o, l).
Definition bind {A B} (m : M A) (k : A -> M B) : M B :=
  fun l =>
    match m l with
    | (Return a, l') => k a l'
    | (Raise e, l') => (Raise e, l')
    end.

(** [s[0]] on a string: the first character, [IndexError] on the empty
    string. *)
Definition str_getitem0 (s : string) : outcome ascii :=
  match s with
  | EmptyString => Raise IndexError
  | String c _ => Return c
  end.

Definition is_decimal_digit (c : ascii) : bool :=
  (48 <=? nat_of_ascii c)%nat && (nat_of_ascii c <=? 57)%nat.

Definition digit_value (c : ascii) : Z := Z.of_nat (nat_of_ascii c) - 48.

(** [int(s)] for a one-character string [s]: the digit's value, and
    [ValueError] for every other character (a lone sign, underscore or
    blank is no literal, and below 256 the decimal digits are 0 to 9). *)
Definition int_of_char (c : ascii) : outcome Z :=
  if is_decimal_digit c then Return (digit_value c) else Raise ValueError.

(** [repr] of a string, as the f-string of [filter_ccs] renders the
    entries of a list. *)
Definition hex_digit (n : nat) : ascii :=
  nth n (list_ascii_of_string "0123456789abcdef") "0"%char.

Definition is_printable (c : ascii) : bool :=
  let n := nat_of_ascii c in
  ((32 <=? n) && (n <? 127) || (161 <=? n) && negb (n =? 173))%nat.

Definition str_contains (c : ascii) (s : string) : bool :=
  existsb (Ascii.eqb c) (list_ascii_of_string s).

Definition single_quote : ascii := "'"%char.
Definition double_quote : ascii := "034"%char.
Definition backslash : ascii := "\"%char.

Definition repr_char (quote c : ascii) : string :=
  if Ascii.eqb c quote || Ascii.eqb c backslash then
    String backslash (String c EmptyString)
  else if Ascii.eqb c "009"%char then "\t"
  else if Ascii.eqb c "010"%char then "\n"
  else if Ascii.eqb c "013"%char then "\r"
  else if is_printable c then String c EmptyString
  else
    let n := nat_of_ascii c in
    "\x" +++ String (hex_digit (n / 16)) (String (hex_digit (n mod 16)) EmptyString).

Definition repr_str (s : string) : string :=
  let quote :=
    if str_contains single_quote s && negb (str_contains double_quote s)
    then double_quote else single_quote in
  String quote
    (String.concat "" (map (repr_char quote) (list_ascii_of_string s))
     +++ String quote EmptyString).

(** [repr] of a list of strings: the entries' [repr]s between brackets,
    separated by a comma and a blank. *)
Definition repr_list (l : list string) : string :=
  "[" +++ String.concat ", " (map repr_str l) +++ "]".

Definition str_endswith_sep (s : string) : bool :=
  match rev (list_ascii_of_string s) with
  | c :: _ => Ascii.eqb c "/"%char
  | [] => false
  end.

(** [os.path.join(a, b)] of [posixpath]: an absolute [b] replaces [a]; a
    separator is added unless [a] is empty or ends with one. *)
Definition os_path_join (a b : string) : string :=
  if String.prefix "/" b then b
  else if String.eqb a "" || str_endswith_sep a then a +++ b
  else a +++ "/" +++ b.

End Py.

Import Py.

Notation "x <- m ;; k" := (bind m (fun x => k))
  (at level 61, m at next level, right associativity).
Notation "m ;;; k" := (bind m (fun _ => k))
  (at level 61, right associativity).

(** ** The environment the builder queries *)

(** What the code reads from an imported [torch]. The last two are read
    only after [torch.cuda.is_available()] answered [True]. *)
Record torch_facts : Type := {
  cuda_is_available : bool;     (* torch.cuda.is_available() *)
  version_cuda_major : Z;       (* int(torch.version.cuda.split('.')[0]),
                                   where that expression has a value *)
  device_major : Z              (* torch.cuda.get_device_properties(0).major *)
}.

Record env : Type := {
  (* the module that [import torch] yields; [None] when the import fails *)
  torch_module : option torch_facts;
  (* self.is_rocm_pytorch() *)
  is_rocm_pytorch : bool;
  (* installed_cuda_version(): the pair (major, minor), where the call
     answers *)
  installed_cuda_version : Z * Z;
  (* CUDAOpBuilder.is_compatible(verbose): its verdict and the warnings it
     writes *)
  super_is_compatible : bool -> bool * list string;
  (* the working directory of the build *)
  cwd : string;
  (* os.path.isdir on the file system of the build *)
  isdir : string -> bool
}.

(** ** The class *)

Module InferenceCoreBuilder.

(** Modelled from the spec: [self.warning] of the base class, which is
    not among the sources. It writes one message to the diagnostic
    channel and raises nothing. *)
Definition warning (msg : string) : M unit :=
  fun l => (Return tt, l ++ [msg]).

(** Modelled from the spec: [self.deepspeed_src_path] of the base class,
    which is not among the sources. The spec looks for the project
    directory directly under the working directory. *)
Definition deepspeed_src_path (E : env) (code_path : string) : string :=
  os_path_join (cwd E) code_path.

(** The call [super().is_compatible(verbose)]. *)
Definition call_super_is_compatible (E : env) (verbose : bool) : M bool :=
  fun l => let '(b, ws) := super_is_compatible E verbose in (Return b, l ++ ws).

(** The statement [import torch]. *)
Definition import_torch (E : env) : outcome torch_facts :=
  match torch_module E with
  | Some torch => Return torch
  | None => Raise ImportError
  end.

(** The names the module binds at its top level: its two import
    statements and its class statement. *)
Definition module_scope : list string :=
  ["os"; "CUDAOpBuilder"; "installed_cuda_version"; "InferenceCoreBuilder"].

(** Reading the name [torch] where no local of that name exists: the
    module's top level decides (no builtin has that name). *)
Definition load_torch (E : env) (scope : list string) : outcome torch_facts :=
  match existsb (String.eqb "torch") scope, torch_module E with
  | true, Some torch => Return torch
  | _, _ => Raise (NameError "torch")
  end.

Definition is_compatible (E : env) (verbose : bool) : M bool :=
  match import_torch E with
  | Raise ImportError =>
      warning "Please install torch if trying to pre-compile inference kernels" ;;;
      ret false
  | Raise e => raise e
  | Return torch =>
      cuda_okay <-
        (if negb (is_rocm_pytorch E) && cuda_is_available torch then
           let '(sys_cuda_major, _) := installed_cuda_version E in
           let torch_cuda_major := version_cuda_major torch in
           let cuda_capability := device_major torch in
           cuda_okay <-
             (if (cuda_capability <? 6)%Z then
                warning "NVIDIA Inference is only supported on Pascal and newer architectures" ;;;
                ret false
              else ret true) ;;
           if (8 <=? cuda_capability)%Z then
             if (torch_cuda_major <? 11)%Z || (sys_cuda_major <? 11)%Z then
               warning "On Ampere and higher architectures please use CUDA 11+" ;;;
               ret false
             else ret cuda_okay
           else ret cuda_okay
         else ret true) ;;
      super_okay <- call_super_is_compatible E verbose ;;
      ret (super_okay && cuda_okay)
  end.

(** The loop of [filter_ccs], with the two lists it appends to. *)
Fixpoint filter_ccs_loop (ccs ccs_retained ccs_pruned : list string)
  : outcome (list string * list string) :=
  match ccs with
  | [] => Return (ccs_retained, ccs_pruned)
  | cc :: rest =>
      match str_getitem0 cc with
      | Raise e => Raise e
      | Return c =>
          match int_of_char c with
          | Raise e => Raise e
          | Return n =>
              if (6 <=? n)%Z
              then filter_ccs_loop rest (ccs_retained ++ [cc]) ccs_pruned
              else filter_ccs_loop rest ccs_retained (ccs_pruned ++ [cc])
          end
      end
  end.

Definition filter_ccs (ccs : list string) : M (list string) :=
  lists <- lift (filter_ccs_loop ccs [] []) ;;
  let '(ccs_retained, ccs_pruned) := lists in
  (if (0 <? List.length ccs_pruned)%nat then
     warning ("Filtered compute capabilities " +++ repr_list ccs_pruned)
   else ret tt) ;;;
  ret ccs_retained.

Definition get_prefix (E : env) : string :=
  let ds_path := deepspeed_src_path E "deepspeed" in
  if isdir E ds_path then "deepspeed" else "..".

(** The body of [sources], read in a module whose top level binds the
    names [scope]. *)
Definition sources_in (scope : list string) (E : env) : M (list string) :=
  let sources := [
    "inference/v2/kernels/core_ops/core_ops.cpp";
    "inference/v2/kernels/core_ops/bias_activations/bias_activation.cpp";
    "inference/v2/kernels/core_ops/bias_activations/bias_activation_cuda.cu";
    "inference/v2/kernels/core_ops/cuda_layer_norm/layer_norm.cpp";
    "inference/v2/kernels/core_ops/cuda_layer_norm/layer_norm_cuda.cu";
    "inference/v2/kernels/core_ops/cuda_rms_norm/rms_norm.cpp";
    "inference/v2/kernels/core_ops/cuda_rms_norm/rms_norm_cuda.cu";
    "inference/v2/kernels/core_ops/gated_activations/gated_activation_kernels.cpp";
    "inference/v2/kernels/core_ops/gated_activations/gated_activation_kernels_cuda.cu"
  ] in
  sources <-
    (if negb (is_rocm_pytorch E) then
       torch <- lift (load_torch E scope) ;;
       if cuda_is_available torch then
         let cuda_capability := device_major torch in
         if negb (cuda_capability =? 8)%Z then
           warning "FP6 quantization kernel is only supported on Ampere architectures" ;;;
           ret sources
         else
           ret ((sources
                 ++ ["inference/v2/kernels/core_ops/cuda_linear/fp6_linear.cu"])
                 ++ ["inference/v2/kernels/core_ops/cuda_linear/cuda_linear_kernels.cpp"])
       else ret sources
     else ret sources) ;;
  let prefix := get_prefix E in
  ret (map (fun src => os_path_join prefix src) sources).

(** [sources] in the module as it is written. *)
Definition sources (E : env) : M (list string) := sources_in module_scope E.

Definition extra_ldflags (E : env) : M (list string) := ret [].

Definition include_paths (E : env) : M (list string) :=
  let sources := [
    "inference/v2/kernels/core_ops/bias_activations";
    "inference/v2/kernels/core_ops/blas_kernels";
    "inference/v2/kernels/core_ops/cuda_layer_norm";
    "inference/v2/kernels/core_ops/cuda_rms_norm";
    "inference/v2/kernels/core_ops/gated_activations";
    "inference/v2/kernels/core_ops/cuda_linear";
    "inference/v2/kernels/includes"
  ] in
  let prefix := get_prefix E in
  ret (map (fun src => os_path_join prefix src) sources).

End InferenceCoreBuilder.

Import InferenceCoreBuilder.

(** ** Vocabulary of the statements *)

(** The nine files that [sources] always lists, and the two it adds for a
    device of generation 8, relative to the prefix. *)
Definition baseline : list string := [
  "inference/v2/kernels/core_ops/core_ops.cpp";
  "inference/v2/kernels/core_ops/bias_activations/bias_activation.cpp";
  "inference/v2/kernels/core_ops/bias_activations/bias_activation_cuda.cu";
  "inference/v2/kernels/core_ops/cuda_layer_norm/layer_norm.cpp";
  "inference/v2/kernels/core_ops/cuda_layer_norm/layer_norm_cuda.cu";
  "inference/v2/kernels/core_ops/cuda_rms_norm/rms_norm.cpp";
  "inference/v2/kernels/core_ops/cuda_rms_norm/rms_norm_cuda.cu";
  "inference/v2/kernels/core_ops/gated_activations/gated_activation_kernels.cpp";
  "inference/v2/kernels/core_ops/gated_activations/gated_activation_kernels_cuda.cu"
].

Definition generation_8_sources : list string := [
  "inference/v2/kernels/core_ops/cuda_linear/fp6_linear.cu";
  "inference/v2/kernels/core_ops/cuda_linear/cuda_linear_kernels.cpp"
].

Definition include_dirs : list string := [
  "inference/v2/kernels/core_ops/bias_activations";
  "inference/v2/kernels/core_ops/blas_kernels";
  "inference/v2/kernels/core_ops/cuda_layer_norm";
  "inference/v2/kernels/core_ops/cuda_rms_norm";
  "inference/v2/kernels/core_ops/gated_activations";
  "inference/v2/kernels/core_ops/cuda_linear";
  "inference/v2/kernels/includes"
].

(** A path under a prefix. *)
Definition under (prefix rel : string) : string := prefix +++ "/" +++ rel.

Definition starts_with (prefix path : string) : Prop :=
  String.prefix prefix path = true.

(** An architecture spec carries its generation digit as first character. *)
Definition has_generation_digit (cc : string) : bool :=
  match cc with
  | String c _ => is_decimal_digit c
  | EmptyString => false
  end.

Definition generation_digit (cc : string) : Z :=
  match cc with
  | String c _ => digit_value c
  | EmptyString => 0
  end.

Definition well_formed (ccs : list string) : Prop :=
  Forall (fun cc => has_generation_digit cc = true) ccs.

Definition supported (cc : string) : bool := (6 <=? generation_digit cc)%Z.
Definition unsupported (cc : string) : bool := negb (supported cc).

(** Rebuilding a list from its two parts, given for every original index
    the part its entry went to ([true]: the retained one). *)
Fixpoint merge_by_index (to_retained : list bool) (retained pruned : list string)
  : list string :=
  match to_retained with
  | [] => []
  | true :: marks =>
      match retained with
      | cc :: retained' => cc :: merge_by_index marks retained' pruned
      | [] => []
      end
  | false :: marks =>
      match pruned with
      | cc :: pruned' => cc :: merge_by_index marks retained pruned'
      | [] => []
      end
  end.

(** [subsequence l1 l2]: [l1] is [l2] with some entries left out, the
    others in their order. *)
Inductive subsequence {A : Type} : list A -> list A -> Prop :=
| subsequence_nil : subsequence [] []
| subsequence_skip x l1 l2 : subsequence l1 l2 -> subsequence l1 (x :: l2)
| subsequence_take x l1 l2 : subsequence l1 l2 -> subsequence (x :: l1) (x :: l2).

(** The warning of [filter_ccs] for a list of pruned entries. *)
Definition filtered_warning (pruned : list string) : list string :=
  match pruned with
  | [] => []
  | _ :: _ => ["Filtered compute capabilities " +++ repr_list pruned]
  end.

(** The environment with other answers to the three CUDA queries: the
    device's generation, the CUDA major version [torch] was built with and
    the installed CUDA version. *)
Definition with_cuda_facts (E : env) (generation torch_cuda_major : Z)
  (sys_cuda : Z * Z) : env :=
  {| torch_module :=
       option_map
         (fun torch =>
            {| cuda_is_available := cuda_is_available torch;
               version_cuda_major := torch_cuda_major;
               device_major := generation |})
         (torch_module E);
     is_rocm_pytorch := is_rocm_pytorch E;
     installed_cuda_version := sys_cuda;
     super_is_compatible := super_is_compatible E;
     cwd := cwd E;
     isdir := isdir E |}.

(** Sample environments: a checkout whose working directory holds the
    project directory, with a device of a given generation. *)
Definition sample_torch (available : bool) (generation : Z) : torch_facts :=
  {| cuda_is_available := available;
     version_cuda_major := 11;
     device_major := generation |}.

Definition sample_env (torch : option torch_facts) (rocm : bool) (sys_major : Z) : env :=
  {| torch_module := torch;
     is_rocm_pytorch := rocm;
     installed_cuda_version := (sys_major, 2%Z);
     super_is_compatible := fun _ => (true, []);
     cwd := "/work";
     isdir := fun p => String.eqb p "/work/deepspeed" |}.

(** Three environments on the primary toolchain, with [torch] importable:
    without a device, with a device of generation 8 and with one of
    generation 7. *)
Definition primary_no_device : env := sample_env (Some (sample_torch false 0)) false 11.
Definition primary_generation_8 : env := sample_env (Some (sample_torch true 8)) false 11.
Definition primary_generation_7 : env := sample_env (Some (sample_torch true 7)) false 11.

(** Two environments on the alternate toolchain, with a device of
    generation 8 and with one of generation 7. *)
Definition rocm_generation_8 : env := sample_env (Some (sample_torch true 8)) true 11.
Definition rocm_generation_7 : env := sample_env (Some (sample_torch true 7)) true 11.

(** The exception of [filter_ccs] on a spec without generation digit. *)
Definition malformed_exn (cc : string) : exn :=
  match cc with
  | EmptyString => IndexError
  | String _ _ => ValueError
  end.

(** ** The compute-capability filter *)

Section FilterCcs.

Local Open Scope Z_scope.

(** The loop appends every spec to one of its two lists, in the order in
    which it meets them. *)
Lemma filter_ccs_loop_appends (ccs : list string) :
  well_formed ccs ->
  forall ccs_retained ccs_pruned,
    filter_ccs_loop ccs ccs_retained ccs_pruned
    = Return (ccs_retained ++ filter supported ccs,
              ccs_pruned ++ filter unsupported ccs).
Proof.
  induction 1 as [|cc ccs Hcc Hccs IH]; intros r p; cbn [filter_ccs_loop filter].
  - now rewrite !app_nil_r.
  - destruct cc as [|c s]; [discriminate|].
    cbn in Hcc. unfold str_getitem0, int_of_char. rewrite Hcc.
    unfold unsupported, supported. cbn [generation_digit negb].
    destruct (6 <=? digit_value c); cbn [negb];
      rewrite IH, <- app_assoc; reflexivity.
Qed.

Lemma filter_ccs_loop_well_formed (ccs : list string) :
  well_formed ccs ->
  filter_ccs_loop ccs [] [] = Return (filter supported ccs, filter unsupported ccs).
Proof. intros H. now rewrite filter_ccs_loop_appends. Qed.

Lemma filter_ccs_well_formed (ccs : list string) (l : log) :
  well_formed ccs ->
  filter_ccs ccs l
  = (Return (filter supported ccs), l ++ filtered_warning (filter unsupported ccs)).
Proof.
  intros H. unfold filter_ccs, bind, lift.
  rewrite (filter_ccs_loop_well_formed _ H).
  destruct (filter unsupported ccs) as [|cc pruned]; cbn.
  - now rewrite app_nil_r.
  - reflexivity.
Qed.

Lemma merge_by_index_filter (ccs : list string) :
  merge_by_index (map supported ccs) (filter supported ccs) (filter unsupported ccs)
  = ccs.
Proof.
  induction ccs as [|cc ccs IH]; [reflexivity|].
  cbn [map filter]. unfold unsupported at 1.
  destruct (supported cc); cbn; now rewrite IH.
Qed.

Lemma filter_subsequence {A : Type} (f : A -> bool) (l : list A) :
  subsequence (filter f l) l.
Proof.
  induction l as [|x l IH]; cbn.
  - constructor.
  - destruct (f x); now constructor.
Qed.

Lemma supported_ge (cc : string) : supported cc = true <-> 6 <= generation_digit cc.
Proof. unfold supported. apply Z.leb_le. Qed.

Lemma unsupported_lt (cc : string) : unsupported cc = true <-> generation_digit cc < 6.
Proof.
  unfold unsupported, supported. rewrite negb_true_iff. apply Z.leb_gt.
Qed.

(** C3. On every list of architecture specs (strings that start with
    their generation digit) [filter_ccs] returns its retained list, and
    the two lists its loop builds split the input: the retained list
    holds exactly the specs of generation digit 6 or more, the pruned list
    exactly those of a digit below 6, no spec is in both, merging the two
    by original index gives the input back, and each of the two keeps the
    input's order. *)
Theorem filter_ccs_partition (ccs : list string) (l : log) :
  well_formed ccs ->
  exists retained pruned,
    filter_ccs_loop ccs [] [] = Return (retained, pruned)
    /\ fst (filter_ccs ccs l) = Return retained
    /\ (forall cc, In cc retained <-> In cc ccs /\ 6 <= generation_digit cc)
    /\ (forall cc, In cc pruned <-> In cc ccs /\ generation_digit cc < 6)
    /\ (forall cc, ~ (In cc retained /\ In cc pruned))
    /\ merge_by_index (map supported ccs) retained pruned = ccs
    /\ subsequence retained ccs
    /\ subsequence pruned ccs.
Proof.
  intros H. exists (filter supported ccs), (filter unsupported ccs).
  split; [now apply filter_ccs_loop_well_formed|].
  split; [now rewrite filter_ccs_well_formed|].
  split; [intros cc; rewrite filter_In, supported_ge; reflexivity|].
  split; [intros cc; rewrite filter_In, unsupported_lt; reflexivity|].
  split.
  { intros cc [Hr Hp]. apply filter_In in Hr, Hp.
    destruct Hr as [_ Hr], Hp as [_ Hp].
    apply supported_ge in Hr. apply unsupported_lt in Hp. lia. }
  split; [apply merge_by_index_filter|].
  split; apply filter_subsequence.
Qed.

Lemma filter_ccs_partition_witness :
  well_formed ["5.0"; "6.1"; "7.0"]
  /\ exists retained pruned,
       filter_ccs_loop ["5.0"; "6.1"; "7.0"] [] [] = Return (retained, pruned)
       /\ fst (filter_ccs ["5.0"; "6.1"; "7.0"] []) = Return retained
       /\ (forall cc, In cc retained
                      <-> In cc ["5.0"; "6.1"; "7.0"] /\ 6 <= generation_digit cc)
       /\ (forall cc, In cc pruned
                      <-> In cc ["5.0"; "6.1"; "7.0"] /\ generation_digit cc < 6)
       /\ (forall cc, ~ (In cc retained /\ In cc pruned))
       /\ merge_by_index (map supported ["5.0"; "6.1"; "7.0"]) retained pruned
          = ["5.0"; "6.1"; "7.0"]
       /\ subsequence retained ["5.0"; "6.1"; "7.0"]
       /\ subsequence pruned ["5.0"; "6.1"; "7.0"].
Proof.
  assert (Hwf : well_formed ["5.0"; "6.1"; "7.0"])
    by (repeat constructor).
  split; [exact Hwf|].
  exact (filter_ccs_partition ["5.0"; "6.1"; "7.0"] [] Hwf).
Defined.

(** C7. On every list of architecture specs [filter_ccs] writes exactly
    one warning when the list of pruned specs (those of a generation
    digit below 6, in the input's order) is not empty, and the warning is
    the fixed text followed by that list as Python prints it; it writes
    nothing when that list is empty. *)
Theorem filter_ccs_warns_once (ccs : list string) (l : log) :
  well_formed ccs ->
  exists retained pruned,
    filter_ccs_loop ccs [] [] = Return (retained, pruned)
    /\ pruned = filter unsupported ccs
    /\ (pruned = [] -> snd (filter_ccs ccs l) = l)
    /\ (pruned <> [] ->
        snd (filter_ccs ccs l)
        = l ++ ["Filtered compute capabilities " +++ repr_list pruned]).
Proof.
  intros H. exists (filter supported ccs), (filter unsupported ccs).
  split; [now apply filter_ccs_loop_well_formed|].
  split; [reflexivity|].
  rewrite (filter_ccs_well_formed _ _ H). cbn [snd].
  destruct (filter unsupported ccs) as [|cc pruned]; cbn [filtered_warning].
  - split; [intros _; apply app_nil_r|intros Hne; now destruct Hne].
  - split; [discriminate|reflexivity].
Qed.

Lemma filter_ccs_warns_once_witness :
  well_formed ["3.5"; "8.0"; "5.2"]
  /\ exists retained pruned,
       filter_ccs_loop ["3.5"; "8.0"; "5.2"] [] [] = Return (retained, pruned)
       /\ pruned = filter unsupported ["3.5"; "8.0"; "5.2"]
       /\ (pruned = [] -> snd (filter_ccs ["3.5"; "8.0"; "5.2"] []) = [])
       /\ (pruned <> [] ->
           snd (filter_ccs ["3.5"; "8.0"; "5.2"] [])
           = [] ++ ["Filtered compute capabilities " +++ repr_list pruned]).
Proof.
  assert (Hwf : well_formed ["3.5"; "8.0"; "5.2"])
    by (repeat constructor).
  split; [exact Hwf|].
  exact (filter_ccs_warns_once ["3.5"; "8.0"; "5.2"] [] Hwf).
Defined.

(** The text of the warning on a sample list, as Python prints it. *)
Example filter_ccs_warning_text :
  filter_ccs ["3.5"; "8.0"; "5.2"] []
  = (Return ["8.0"], ["Filtered compute capabilities ['3.5', '5.2']"]).
Proof. reflexivity. Qed.

(** A spec that does not start with a digit stops the loop with an
    exception, before any warning. *)
Example filter_ccs_not_a_digit :
  filter_ccs ["5.0"; "sm_80"] [] = (Raise ValueError, [])
  /\ filter_ccs ["5.0"; ""] [] = (Raise IndexError, []).
Proof. split; reflexivity. Qed.

(** The loop on a single spec: only the first character is read. *)
Lemma filter_ccs_loop_single (c : ascii) (s : string) :
  filter_ccs_loop [String c s] [] []
  = match int_of_char c with
    | Return n => if 6 <=? n then Return ([String c s], []) else Return ([], [String c s])
    | Raise e => Raise e
    end.
Proof.
  cbn. destruct (int_of_char c) as [n|e]; [|reflexivity].
  now destruct (6 <=? n).
Qed.

(** C9. Retention reads the first character only: on every list of
    architecture specs the returned list is the input filtered by "the
    digit value of the first character is at least 6"; two specs with the
    same first character are both retained or both not, whatever follows
    that character; and "10" is pruned. *)
Theorem filter_ccs_first_character_only :
  (forall ccs l,
      well_formed ccs ->
      fst (filter_ccs ccs l)
      = Return (filter (fun cc => match cc with
                                  | String c _ => 6 <=? digit_value c
                                  | EmptyString => false
                                  end) ccs))
  /\ (forall c s s' l,
         fst (filter_ccs [String c s] l) = Return [String c s]
         <-> fst (filter_ccs [String c s'] l) = Return [String c s'])
  /\ (forall l,
         filter_ccs ["10"] l
         = (Return [], l ++ ["Filtered compute capabilities ['10']"])).
Proof.
  split; [|split].
  - intros ccs l H. rewrite (filter_ccs_well_formed _ _ H). cbn [fst].
    f_equal. apply filter_ext. intros [|c s]; reflexivity.
  - intros c s s' l. unfold filter_ccs, bind, lift.
    rewrite !filter_ccs_loop_single.
    destruct (int_of_char c) as [n|e]; [|split; discriminate].
    destruct (6 <=? n); cbn; split; intros; try reflexivity; discriminate.
  - intros l. reflexivity.
Qed.

Lemma filter_ccs_first_character_only_witness :
  well_formed ["10"; "8.6+PTX"; "6"]
  /\ fst (filter_ccs ["10"; "8.6+PTX"; "6"] []) = Return ["8.6+PTX"; "6"].
Proof.
  split; [repeat constructor|].
  refine (eq_trans
            (proj1 filter_ccs_first_character_only ["10"; "8.6+PTX"; "6"] [] _) _).
  - repeat constructor.
  - reflexivity.
Defined.

End FilterCcs.

(** ** The compatibility check *)

Section IsCompatible.

Local Open Scope Z_scope.

Ltac run := unfold bind, warning, ret, raise, lift, call_super_is_compatible.

(** C4. Without an importable [torch] the check answers [False] at once:
    it writes the one warning that recommends installing it, writes
    nothing else, consults neither the device rules nor the base class,
    and raises nothing, whatever the other facts are. *)
Theorem is_compatible_without_torch (E : env) (verbose : bool) (l : log) :
  torch_module E = None ->
  is_compatible E verbose l
  = (Return false,
     l ++ ["Please install torch if trying to pre-compile inference kernels"]).
Proof.
  intros H. unfold is_compatible, import_torch. rewrite H. reflexivity.
Qed.

Lemma is_compatible_without_torch_witness :
  torch_module (sample_env None false 12) = None
  /\ is_compatible (sample_env None false 12) true []
     = (Return false,
        [] ++ ["Please install torch if trying to pre-compile inference kernels"]).
Proof.
  split; [reflexivity|].
  exact (is_compatible_without_torch (sample_env None false 12) true [] eq_refl).
Defined.

(** C2. On the primary toolchain, with a device of generation 8 or more:
    if the CUDA major version [torch] was built with, or the installed
    one, is below 11, the check writes the CUDA 11+ warning and its
    verdict is [False], whatever the other version and the base class
    say; if both are 11 or more, the rule passes: no warning of this
    class is written and the verdict is the base class's. *)
Theorem is_compatible_ampere_needs_cuda_11
  (E : env) (torch : torch_facts) (verbose : bool) (l : log) :
  torch_module E = Some torch ->
  is_rocm_pytorch E = false ->
  cuda_is_available torch = true ->
  8 <= device_major torch ->
  (version_cuda_major torch < 11 \/ fst (installed_cuda_version E) < 11 ->
   is_compatible E verbose l
   = (Return false,
      (l ++ ["On Ampere and higher architectures please use CUDA 11+"])
      ++ snd (super_is_compatible E verbose)))
  /\ (11 <= version_cuda_major torch /\ 11 <= fst (installed_cuda_version E) ->
      is_compatible E verbose l
      = (Return (fst (super_is_compatible E verbose)),
         l ++ snd (super_is_compatible E verbose))).
Proof.
  intros Ht Hrocm Hcuda Hgen.
  unfold is_compatible, import_torch. rewrite Ht, Hrocm, Hcuda. cbn [negb andb].
  run.
  destruct (installed_cuda_version E) as [sys_cuda_major minor]. cbn [fst].
  destruct (super_is_compatible E verbose) as [super_okay ws]. cbn [fst snd].
  destruct (Z.ltb_spec (device_major torch) 6) as [Hlt|_]; [lia|].
  destruct (Z.leb_spec 8 (device_major torch)) as [_|Hlt]; [|lia].
  split.
  - intros Hold.
    destruct (Z.ltb_spec (version_cuda_major torch) 11) as [Ht11|Ht11];
      destruct (Z.ltb_spec sys_cuda_major 11) as [Hs11|Hs11];
      cbn [orb]; try (exfalso; lia);
      cbn; now rewrite ?andb_false_r.
  - intros [Ht11 Hs11].
    destruct (Z.ltb_spec (version_cuda_major torch) 11) as [?|_]; [lia|].
    destruct (Z.ltb_spec sys_cuda_major 11) as [?|_]; [lia|].
    cbn. now rewrite ?andb_true_r.
Qed.

Lemma is_compatible_ampere_needs_cuda_11_witness :
  is_compatible (sample_env (Some (sample_torch true 8)) false 10) true []
  = (Return false, ["On Ampere and higher architectures please use CUDA 11+"]).
Proof.
  refine (proj1
            (is_compatible_ampere_needs_cuda_11
               (sample_env (Some (sample_torch true 8)) false 10)
               (sample_torch true 8) true [] eq_refl eq_refl eq_refl _) _).
  - cbn. lia.
  - right. cbn. lia.
Defined.

(** C6. On the alternate (ROCm) toolchain the device rules are not
    reached: changing the device's generation and both CUDA major
    versions changes neither the verdict nor the warnings, and with
    [torch] importable the check is the base class's alone. *)
Theorem is_compatible_rocm_ignores_cuda_rules
  (E : env) (generation torch_cuda_major : Z) (sys_cuda : Z * Z)
  (verbose : bool) (l : log) :
  is_rocm_pytorch E = true ->
  is_compatible (with_cuda_facts E generation torch_cuda_major sys_cuda) verbose l
  = is_compatible E verbose l
  /\ (torch_module E <> None ->
      is_compatible E verbose l
      = (Return (fst (super_is_compatible E verbose)),
         l ++ snd (super_is_compatible E verbose))).
Proof.
  intros Hrocm. unfold is_compatible, import_torch, with_cuda_facts. run.
  cbn [torch_module is_rocm_pytorch installed_cuda_version super_is_compatible].
  rewrite Hrocm. cbn [negb andb].
  destruct (torch_module E) as [torch|]; cbn [option_map].
  - destruct (super_is_compatible E verbose) as [super_okay ws]. cbn [fst snd].
    rewrite andb_true_r. split; [reflexivity|intros _; reflexivity].
  - split; [reflexivity|intros H; now destruct H].
Qed.

Lemma is_compatible_rocm_ignores_cuda_rules_witness :
  is_compatible
    (with_cuda_facts (sample_env (Some (sample_torch true 8)) true 10) 5 9 (9, 0))
    true []
  = is_compatible (sample_env (Some (sample_torch true 8)) true 10) true [].
Proof.
  exact (proj1
           (is_compatible_rocm_ignores_cuda_rules
              (sample_env (Some (sample_torch true 8)) true 10) 5 9 (9, 0)
              true [] eq_refl)).
Defined.

(** The same facts on the primary toolchain do matter. *)
Example is_compatible_primary_depends_on_generation :
  is_compatible (sample_env (Some (sample_torch true 8)) false 11) true []
  = (Return true, [])
  /\ is_compatible (sample_env (Some (sample_torch true 5)) false 11) true []
     = (Return false,
        ["NVIDIA Inference is only supported on Pascal and newer architectures"]).
Proof. split; reflexivity. Qed.

End IsCompatible.

(** ** Prefix, sources, include paths and link flags *)

Section Paths.

Ltac run := unfold bind, warning, ret, raise, lift.

Lemma Return_inj {A : Type} (a b : A) : Return a = Return b -> a = b.
Proof. congruence. Qed.

Lemma prefix_append (p s : string) : String.prefix p (p +++ s) = true.
Proof.
  induction p as [|c p IH]; cbn; [now destruct s|].
  destruct (ascii_dec c c) as [_|Hne]; [exact IH|now destruct Hne].
Qed.

Lemma starts_with_under (p rel : string) : starts_with p (under p rel).
Proof. apply prefix_append. Qed.

Lemma get_prefix_cases (E : env) :
  get_prefix E = "deepspeed" \/ get_prefix E = "..".
Proof. unfold get_prefix. destruct (isdir E _); auto. Qed.

(** Joining the prefix with the relative names of the class puts them
    under the prefix: none of them is absolute. *)
Lemma join_baseline (E : env) :
  map (fun src => os_path_join (get_prefix E) src) baseline
  = map (under (get_prefix E)) baseline.
Proof. destruct (get_prefix_cases E) as [-> | ->]; reflexivity. Qed.

Lemma join_generation_8 (E : env) :
  map (fun src => os_path_join (get_prefix E) src) (baseline ++ generation_8_sources)
  = map (under (get_prefix E)) (baseline ++ generation_8_sources).
Proof. destruct (get_prefix_cases E) as [-> | ->]; reflexivity. Qed.

Lemma join_include_dirs (E : env) :
  map (fun src => os_path_join (get_prefix E) src) include_dirs
  = map (under (get_prefix E)) include_dirs.
Proof. destruct (get_prefix_cases E) as [-> | ->]; reflexivity. Qed.

Lemma Forall_starts_with_under (p : string) (rels : list string) :
  Forall (starts_with p) (map (under p) rels).
Proof.
  induction rels as [|rel rels IH]; cbn; constructor;
    [apply starts_with_under|exact IH].
Qed.

(** [sources] on the alternate toolchain, in any module scope. *)
Lemma sources_in_rocm (scope : list string) (E : env) (l : log) :
  is_rocm_pytorch E = true ->
  sources_in scope E l = (Return (map (under (get_prefix E)) baseline), l).
Proof.
  intros Hrocm. unfold sources_in. rewrite Hrocm. cbn [negb]. run.
  now rewrite <- join_baseline.
Qed.

(** [sources] on the primary toolchain where the name [torch] does not
    resolve. *)
Lemma sources_in_unbound (scope : list string) (E : env) (l : log) :
  is_rocm_pytorch E = false ->
  load_torch E scope = Raise (NameError "torch") ->
  sources_in scope E l = (Raise (NameError "torch"), l).
Proof.
  intros Hrocm Hload. unfold sources_in. rewrite Hrocm, Hload. reflexivity.
Qed.

(** [sources] on the primary toolchain where the name [torch] resolves:
    the three branches of the device test. *)
Lemma sources_in_bound (scope : list string) (E : env) (torch : torch_facts) (l : log) :
  is_rocm_pytorch E = false ->
  load_torch E scope = Return torch ->
  sources_in scope E l
  = if cuda_is_available torch then
      if (device_major torch =? 8)%Z then
        (Return (map (under (get_prefix E)) (baseline ++ generation_8_sources)), l)
      else
        (Return (map (under (get_prefix E)) baseline),
         l ++ ["FP6 quantization kernel is only supported on Ampere architectures"])
    else (Return (map (under (get_prefix E)) baseline), l).
Proof.
  intros Hrocm Hload. unfold sources_in. rewrite Hrocm, Hload. cbn [negb]. run.
  destruct (cuda_is_available torch).
  - destruct (device_major torch =? 8)%Z; cbn [negb].
    + now rewrite <- join_generation_8.
    + now rewrite <- join_baseline.
  - now rewrite <- join_baseline.
Qed.

(** In the module as it is written the name [torch] is bound in
    [is_compatible] only, by the import statement of that method;
    [sources] reads it from the module's top level, which does not bind
    it. *)
Lemma load_torch_module_scope (E : env) :
  load_torch E module_scope = Raise (NameError "torch").
Proof. reflexivity. Qed.

Lemma sources_primary_toolchain (E : env) (l : log) :
  is_rocm_pytorch E = false ->
  sources E l = (Raise (NameError "torch"), l).
Proof.
  intros Hrocm. apply sources_in_unbound;
    [exact Hrocm|apply load_torch_module_scope].
Qed.

(** Whatever the scope, [sources] returns one of two lists or raises, and
    its outcome and its warnings do not depend on the channel. *)
Lemma sources_in_channel (scope : list string) (E : env) :
  exists out ws,
    (forall l, sources_in scope E l = (out, l ++ ws))
    /\ (forall paths, out = Return paths ->
                      Forall (starts_with (get_prefix E)) paths).
Proof.
  destruct (is_rocm_pytorch E) eqn:Hrocm.
  - exists (Return (map (under (get_prefix E)) baseline)), [].
    split.
    + intros l. rewrite app_nil_r. now apply sources_in_rocm.
    + intros paths H. apply Return_inj in H. subst paths.
           apply Forall_starts_with_under.
  - destruct (load_torch E scope) as [torch|e] eqn:Hload.
    + destruct (cuda_is_available torch) eqn:Hcuda;
        [destruct (device_major torch =? 8)%Z eqn:Hgen|].
      * exists (Return (map (under (get_prefix E)) (baseline ++ generation_8_sources))), [].
        split.
        -- intros l. rewrite (sources_in_bound _ _ _ _ Hrocm Hload), Hcuda, Hgen.
           now rewrite app_nil_r.
        -- intros paths H. apply Return_inj in H. subst paths.
           apply Forall_starts_with_under.
      * exists (Return (map (under (get_prefix E)) baseline)),
          ["FP6 quantization kernel is only supported on Ampere architectures"].
        split.
        -- intros l. now rewrite (sources_in_bound _ _ _ _ Hrocm Hload), Hcuda, Hgen.
        -- intros paths H. apply Return_inj in H. subst paths.
           apply Forall_starts_with_under.
      * exists (Return (map (under (get_prefix E)) baseline)), [].
        split.
        -- intros l. rewrite (sources_in_bound _ _ _ _ Hrocm Hload), Hcuda.
           now rewrite app_nil_r.
        -- intros paths H. apply Return_inj in H. subst paths.
           apply Forall_starts_with_under.
    + exists (Raise e), []. split.
      * intros l. unfold sources_in. rewrite Hrocm, Hload. cbn [negb]. run.
        now rewrite app_nil_r.
      * discriminate.
Qed.

End Paths.

Section SourcesAndPaths.

(** The device test of [sources] is not reached on the alternate
    toolchain: with a device of generation 8 present, [sources] returns
    the nine baseline files and not the two generation-8 files after them;
    with a device of generation 7 present it writes no warning. *)
Lemma sources_rocm_generation_8_baseline_only :
  (exists torch,
      torch_module rocm_generation_8 = Some torch
      /\ cuda_is_available torch = true
      /\ device_major torch = 8%Z)
  /\ sources rocm_generation_8 []
     = (Return (map (under "deepspeed") baseline), [])
  /\ sources rocm_generation_8 []
     <> (Return (map (under "deepspeed") (baseline ++ generation_8_sources)), [])
  /\ snd (sources rocm_generation_7 []) = [].
Proof.
  split; [exists (sample_torch true 8); repeat split|].
  split; [reflexivity|].
  split; [discriminate|reflexivity].
Qed.

(** X13. On the alternate toolchain [sources] returns exactly the nine
    baseline files, each under the prefix, and writes no warning, whether
    a device is present or not and whatever its generation is. *)
Theorem sources_alternate_toolchain (E : env) (l : log) :
  is_rocm_pytorch E = true ->
  sources E l = (Return (map (under (get_prefix E)) baseline), l).
Proof. apply sources_in_rocm. Qed.

Lemma sources_alternate_toolchain_witness :
  is_rocm_pytorch rocm_generation_8 = true
  /\ sources rocm_generation_8 []
     = (Return (map (under (get_prefix rocm_generation_8)) baseline), []).
Proof.
  split; [reflexivity|].
  exact (sources_alternate_toolchain rocm_generation_8 [] eq_refl).
Defined.

(** C1. On the primary toolchain, with [torch] importable, [sources]
    does none of the three things the claim says: without a device, with a
    device of generation 8 and with a device of generation 7 it raises
    [NameError] for the name [torch], which the module binds nowhere
    outside [is_compatible]; it returns no list and writes no warning. *)
Theorem sources_fails_on_primary_toolchain :
  sources primary_no_device [] = (Raise (NameError "torch"), [])
  /\ sources primary_generation_8 [] = (Raise (NameError "torch"), [])
  /\ sources primary_generation_7 [] = (Raise (NameError "torch"), []).
Proof. repeat split; reflexivity. Qed.

(** The body of [sources] does at the same three inputs what the claim
    says as soon as the module's top level binds the name [torch]. *)
Example sources_body_with_torch_bound :
  sources_in ("torch" :: module_scope) primary_no_device []
  = (Return (map (under "deepspeed") baseline), [])
  /\ sources_in ("torch" :: module_scope) primary_generation_8 []
     = (Return (map (under "deepspeed") (baseline ++ generation_8_sources)), [])
  /\ sources_in ("torch" :: module_scope) primary_generation_7 []
     = (Return (map (under "deepspeed") baseline),
        ["FP6 quantization kernel is only supported on Ampere architectures"]).
Proof. repeat split; reflexivity. Qed.

(** C5. The prefix is "deepspeed" exactly when the project directory
    under the working directory exists, and ".." otherwise; every
    path that [sources] returns and every path that [include_paths]
    returns (it always returns its seven) starts with that prefix. *)
Theorem prefix_resolved_and_applied (E : env) :
  (get_prefix E = "deepspeed"
   <-> isdir E (os_path_join (cwd E) "deepspeed") = true)
  /\ (get_prefix E = ".."
      <-> isdir E (os_path_join (cwd E) "deepspeed") = false)
  /\ (forall l paths l',
         sources E l = (Return paths, l') ->
         Forall (starts_with (get_prefix E)) paths)
  /\ (forall l,
         include_paths E l = (Return (map (under (get_prefix E)) include_dirs), l)
         /\ Forall (starts_with (get_prefix E))
              (map (under (get_prefix E)) include_dirs)).
Proof.
  split; [|split; [|split]].
  - unfold get_prefix, deepspeed_src_path.
    destruct (isdir E _); split; intros H; try reflexivity; discriminate.
  - unfold get_prefix, deepspeed_src_path.
    destruct (isdir E _); split; intros H; try reflexivity; discriminate.
  - intros l paths l' H.
    destruct (sources_in_channel module_scope E) as (out & ws & Hrun & Hpaths).
    apply Hpaths. unfold sources in H. rewrite Hrun in H. congruence.
  - intros l. split; [|apply Forall_starts_with_under].
    unfold include_paths, ret. fold include_dirs. now rewrite join_include_dirs.
Qed.

Lemma prefix_resolved_and_applied_witness :
  Forall (starts_with "deepspeed") (map (under "deepspeed") baseline).
Proof.
  exact (proj1 (proj2 (proj2 (prefix_resolved_and_applied rocm_generation_8)))
           [] (map (under "deepspeed") baseline) [] eq_refl).
Defined.

(** The prefix in a working directory without the project directory. *)
Example get_prefix_parent :
  get_prefix
    {| torch_module := None; is_rocm_pytorch := false;
       installed_cuda_version := (11, 0)%Z;
       super_is_compatible := fun _ => (true, []);
       cwd := "/work/deepspeed/csrc"; isdir := fun p => String.eqb p "/work/deepspeed" |}
  = "..".
Proof. reflexivity. Qed.

(** C10. [extra_ldflags] returns the empty list and writes nothing, in
    every environment. *)
Theorem extra_ldflags_empty (E : env) (l : log) :
  extra_ldflags E l = (Return [], l).
Proof. reflexivity. Qed.

End SourcesAndPaths.

(** ** Further properties of the compatibility check *)

Section IsCompatibleMore.

Local Open Scope Z_scope.

Ltac run := unfold bind, warning, ret, raise, lift, call_super_is_compatible.

(** X1. With [torch] importable, and for the answers that the two version
    queries give (the installed CUDA version and the CUDA major version
    [torch] was built with; the check makes them only on the primary
    toolchain with a device present), the verdict is [True] exactly when
    the base class accepts and the device rules pass: alternate toolchain,
    or no device, or generation 6 or 7, or generation 8 and more with both
    CUDA major versions at 11 or more. *)
Theorem is_compatible_verdict
  (E : env) (torch : torch_facts)
  (sys_cuda_major sys_cuda_minor torch_cuda_major : Z)
  (verbose : bool) (l : log) :
  torch_module E = Some torch ->
  installed_cuda_version E = (sys_cuda_major, sys_cuda_minor) ->
  version_cuda_major torch = torch_cuda_major ->
  fst (is_compatible E verbose l)
  = Return (fst (super_is_compatible E verbose)
            && (is_rocm_pytorch E
                || negb (cuda_is_available torch)
                || ((6 <=? device_major torch)
                    && ((device_major torch <? 8)
                        || ((11 <=? torch_cuda_major) && (11 <=? sys_cuda_major)))))).
Proof.
  intros Ht Hsys Htorch. unfold is_compatible, import_torch.
  rewrite Ht, Hsys, Htorch. run.
  rewrite (Z.leb_antisym (device_major torch) 6),
    (Z.ltb_antisym 8 (device_major torch)),
    (Z.leb_antisym torch_cuda_major 11),
    (Z.leb_antisym sys_cuda_major 11).
  destruct (super_is_compatible E verbose) as [super_okay ws]. cbn [fst].
  destruct (is_rocm_pytorch E), (cuda_is_available torch); cbn [negb andb orb];
    try (now rewrite ?andb_true_r).
  destruct (device_major torch <? 6), (8 <=? device_major torch),
    (torch_cuda_major <? 11), (sys_cuda_major <? 11);
    cbn; now rewrite ?andb_true_r, ?andb_false_r.
Qed.

Lemma is_compatible_verdict_witness :
  fst (is_compatible (sample_env (Some (sample_torch true 7)) false 9) false [])
  = Return true.
Proof.
  exact (is_compatible_verdict
           (sample_env (Some (sample_torch true 7)) false 9)
           (sample_torch true 7) 9 2 11 false [] eq_refl eq_refl eq_refl).
Defined.

(** X2. On the primary toolchain a device of a generation below 6 makes
    the verdict [False] and writes the Pascal warning and no other warning
    of this class, whatever the two CUDA versions and the base class say;
    the base class is still consulted, after the warning. *)
Theorem is_compatible_pascal_rule
  (E : env) (torch : torch_facts) (verbose : bool) (l : log) :
  torch_module E = Some torch ->
  is_rocm_pytorch E = false ->
  cuda_is_available torch = true ->
  device_major torch < 6 ->
  is_compatible E verbose l
  = (Return false,
     (l ++ ["NVIDIA Inference is only supported on Pascal and newer architectures"])
     ++ snd (super_is_compatible E verbose)).
Proof.
  intros Ht Hrocm Hcuda Hgen.
  unfold is_compatible, import_torch. rewrite Ht, Hrocm, Hcuda. cbn [negb andb]. run.
  destruct (installed_cuda_version E) as [sys_cuda_major minor].
  destruct (super_is_compatible E verbose) as [super_okay ws]. cbn [snd].
  destruct (Z.ltb_spec (device_major torch) 6) as [_|Hge]; [|lia].
  destruct (Z.leb_spec 8 (device_major torch)) as [Hge|_]; [lia|].
  now rewrite andb_false_r.
Qed.

Lemma is_compatible_pascal_rule_witness :
  is_compatible (sample_env (Some (sample_torch true 5)) false 12) true []
  = (Return false,
     ["NVIDIA Inference is only supported on Pascal and newer architectures"]).
Proof.
  refine (is_compatible_pascal_rule
            (sample_env (Some (sample_torch true 5)) false 12)
            (sample_torch true 5) true [] eq_refl eq_refl eq_refl _).
  cbn. lia.
Defined.

(** X3. With [torch] importable, and for the answers that the two version
    queries give, the check writes at most one warning of its own, ahead
    of the base class's warnings; that warning does not depend on
    [verbose], which only the base class receives. *)
Theorem is_compatible_own_warning
  (E : env) (torch : torch_facts)
  (sys_cuda_major sys_cuda_minor torch_cuda_major : Z) :
  torch_module E = Some torch ->
  installed_cuda_version E = (sys_cuda_major, sys_cuda_minor) ->
  version_cuda_major torch = torch_cuda_major ->
  exists own : list string,
    (List.length own <= 1)%nat
    /\ forall verbose l,
         snd (is_compatible E verbose l)
         = (l ++ own) ++ snd (super_is_compatible E verbose).
Proof.
  intros Ht Hsys Htorch. unfold is_compatible, import_torch.
  rewrite Ht, Hsys, Htorch. run.
  destruct (negb (is_rocm_pytorch E) && cuda_is_available torch).
  2:{ exists []. split; [cbn; lia|]. intros verbose l.
      destruct (super_is_compatible E verbose) as [super_okay ws].
      cbn [snd]. now rewrite app_nil_r. }
  destruct (Z.ltb_spec (device_major torch) 6) as [Hlt|Hge].
  - exists ["NVIDIA Inference is only supported on Pascal and newer architectures"].
    split; [cbn; lia|]. intros verbose l.
    destruct (Z.leb_spec 8 (device_major torch)) as [H8|_]; [lia|].
    destruct (super_is_compatible E verbose) as [super_okay ws]. reflexivity.
  - destruct (8 <=? device_major torch);
      [destruct ((torch_cuda_major <? 11) || (sys_cuda_major <? 11))|].
    + exists ["On Ampere and higher architectures please use CUDA 11+"].
      split; [cbn; lia|]. intros verbose l.
      destruct (super_is_compatible E verbose) as [super_okay ws]. reflexivity.
    + exists []. split; [cbn; lia|]. intros verbose l.
      destruct (super_is_compatible E verbose) as [super_okay ws].
      cbn [snd]. now rewrite app_nil_r.
    + exists []. split; [cbn; lia|]. intros verbose l.
      destruct (super_is_compatible E verbose) as [super_okay ws].
      cbn [snd]. now rewrite app_nil_r.
Qed.

Lemma is_compatible_own_warning_witness :
  exists own : list string,
    (List.length own <= 1)%nat
    /\ forall verbose l,
         snd (is_compatible (sample_env (Some (sample_torch true 8)) false 10) verbose l)
         = (l ++ own)
           ++ snd (super_is_compatible
                     (sample_env (Some (sample_torch true 8)) false 10) verbose).
Proof.
  exact (is_compatible_own_warning
           (sample_env (Some (sample_torch true 8)) false 10)
           (sample_torch true 8) 10 2 11 eq_refl eq_refl eq_refl).
Defined.

End IsCompatibleMore.

(** ** Further properties of the compute-capability filter *)

Section FilterCcsMore.

Local Open Scope Z_scope.

(** The loop over a well-formed front of the list. *)
Lemma filter_ccs_loop_front (front rest : list string) :
  well_formed front ->
  forall ccs_retained ccs_pruned,
    filter_ccs_loop (front ++ rest) ccs_retained ccs_pruned
    = filter_ccs_loop rest (ccs_retained ++ filter supported front)
        (ccs_pruned ++ filter unsupported front).
Proof.
  induction 1 as [|cc front Hcc Hfront IH]; intros r p; cbn [app filter_ccs_loop filter].
  - now rewrite !app_nil_r.
  - destruct cc as [|c s]; [discriminate|].
    cbn in Hcc. unfold str_getitem0, int_of_char. rewrite Hcc.
    unfold unsupported, supported. cbn [generation_digit negb].
    destruct (6 <=? digit_value c); cbn [negb];
      rewrite IH, <- app_assoc; reflexivity.
Qed.

Lemma filter_ccs_loop_malformed (cc : string) (rest r p : list string) :
  has_generation_digit cc = false ->
  filter_ccs_loop (cc :: rest) r p = Raise (malformed_exn cc).
Proof.
  intros Hcc. destruct cc as [|c s]; [reflexivity|].
  cbn in Hcc. cbn. unfold int_of_char. now rewrite Hcc.
Qed.

Lemma filter_ccs_loop_returns (ccs : list string) :
  forall r p r' p',
    filter_ccs_loop ccs r p = Return (r', p') -> well_formed ccs.
Proof.
  induction ccs as [|cc ccs IH]; intros r p r' p' H; [constructor|].
  destruct (has_generation_digit cc) eqn:Hcc.
  - constructor; [exact Hcc|].
    destruct cc as [|c s]; [discriminate|].
    cbn in Hcc, H. unfold int_of_char in H. rewrite Hcc in H.
    destruct (6 <=? digit_value c); eapply IH; exact H.
  - rewrite (filter_ccs_loop_malformed _ _ _ _ Hcc) in H. discriminate.
Qed.

Lemma well_formed_filter (f : string -> bool) (ccs : list string) :
  well_formed ccs -> well_formed (filter f ccs).
Proof.
  unfold well_formed. rewrite !Forall_forall. intros H cc Hin.
  apply filter_In in Hin. now apply H.
Qed.

Lemma filter_supported_twice (ccs : list string) :
  filter supported (filter supported ccs) = filter supported ccs
  /\ filter unsupported (filter supported ccs) = [].
Proof.
  induction ccs as [|cc ccs [IH1 IH2]]; [split; reflexivity|].
  cbn [filter]. destruct (supported cc) eqn:Hcc; [|now split].
  cbn [filter]. unfold unsupported at 1. rewrite Hcc. cbn [negb].
  split; [now rewrite IH1|exact IH2].
Qed.

Lemma filter_all (f : string -> bool) (ccs : list string) :
  filter f ccs = ccs <-> Forall (fun cc => f cc = true) ccs.
Proof.
  split.
  - intros Heq. apply Forall_forall. intros cc Hin.
    rewrite <- Heq in Hin. now apply filter_In in Hin.
  - induction 1 as [|cc ccs Hcc _ IH]; [reflexivity|].
    cbn. now rewrite Hcc, IH.
Qed.

Lemma filter_none (f : string -> bool) (ccs : list string) :
  Forall (fun cc => f cc = true) ccs -> filter (fun cc => negb (f cc)) ccs = [].
Proof.
  induction 1 as [|cc ccs Hcc _ IH]; [reflexivity|].
  cbn. now rewrite Hcc, IH.
Qed.

(** X4. The first entry that does not start with a decimal digit ends
    [filter_ccs] with an exception, [IndexError] for an empty string and
    [ValueError] otherwise, and no warning is written, even when entries
    before it were pruned. *)
Theorem filter_ccs_malformed_raises (front : list string) (cc : string)
  (rest : list string) (l : log) :
  well_formed front ->
  has_generation_digit cc = false ->
  filter_ccs (front ++ cc :: rest) l = (Raise (malformed_exn cc), l).
Proof.
  intros Hfront Hcc. unfold filter_ccs, bind, lift.
  now rewrite (filter_ccs_loop_front _ _ Hfront), (filter_ccs_loop_malformed _ _ _ _ Hcc).
Qed.

Lemma filter_ccs_malformed_raises_witness :
  filter_ccs (["5.0"; "8.0"] ++ "sm_90" :: ["3.5"]) [] = (Raise ValueError, []).
Proof.
  refine (filter_ccs_malformed_raises ["5.0"; "8.0"] "sm_90" ["3.5"] [] _ eq_refl).
  repeat constructor.
Defined.

Lemma filter_ccs_returned_well_formed (ccs retained : list string) (l l' : log) :
  filter_ccs ccs l = (Return retained, l') -> well_formed ccs.
Proof.
  intros H. unfold filter_ccs, bind, lift in H.
  destruct (filter_ccs_loop ccs [] []) as [[r p]|e] eqn:Hloop; [|discriminate].
  eapply filter_ccs_loop_returns. exact Hloop.
Qed.

Lemma filter_ccs_fst_well_formed (ccs retained : list string) (l : log) :
  fst (filter_ccs ccs l) = Return retained -> well_formed ccs.
Proof.
  destruct (filter_ccs ccs l) as [o l'] eqn:H. cbn. intros ->.
  eapply filter_ccs_returned_well_formed. exact H.
Qed.

(** X5. [filter_ccs] returns a list exactly on the lists whose entries
    all start with a decimal digit. *)
Theorem filter_ccs_returns_iff_well_formed (ccs : list string) (l : log) :
  (exists retained l', filter_ccs ccs l = (Return retained, l'))
  <-> well_formed ccs.
Proof.
  split.
  - intros (retained & l' & H). eapply filter_ccs_returned_well_formed. exact H.
  - intros H. rewrite (filter_ccs_well_formed _ _ H). eauto.
Qed.

(** X6. Filtering what [filter_ccs] returned changes nothing: the second
    call returns the same list and writes no warning. *)
Theorem filter_ccs_idempotent (ccs retained : list string) (l l' l'' : log) :
  filter_ccs ccs l = (Return retained, l') ->
  filter_ccs retained l'' = (Return retained, l'').
Proof.
  intros H.
  assert (Hwf : well_formed ccs)
    by (eapply filter_ccs_returned_well_formed; exact H).
  rewrite (filter_ccs_well_formed _ _ Hwf) in H.
  assert (Hr : retained = filter supported ccs) by congruence. subst retained.
  rewrite (filter_ccs_well_formed _ _ (well_formed_filter _ _ Hwf)).
  destruct (filter_supported_twice ccs) as [-> ->]. cbn. now rewrite app_nil_r.
Qed.

Lemma filter_ccs_idempotent_witness :
  filter_ccs ["8.0"; "9.0"] ["earlier"] = (Return ["8.0"; "9.0"], ["earlier"]).
Proof.
  exact (filter_ccs_idempotent ["5.2"; "8.0"; "3.7"; "9.0"] ["8.0"; "9.0"] []
           ["Filtered compute capabilities ['5.2', '3.7']"] ["earlier"] eq_refl).
Defined.

(** X7. The list returned for a concatenation is the concatenation of the
    lists returned for the parts. *)
Theorem filter_ccs_app (ccs1 ccs2 retained1 retained2 : list string) (l : log) :
  fst (filter_ccs ccs1 l) = Return retained1 ->
  fst (filter_ccs ccs2 l) = Return retained2 ->
  fst (filter_ccs (ccs1 ++ ccs2) l) = Return (retained1 ++ retained2).
Proof.
  intros H1 H2.
  assert (Hwf1 : well_formed ccs1)
    by (eapply filter_ccs_fst_well_formed; exact H1).
  assert (Hwf2 : well_formed ccs2)
    by (eapply filter_ccs_fst_well_formed; exact H2).
  rewrite (filter_ccs_well_formed _ _ Hwf1) in H1.
  rewrite (filter_ccs_well_formed _ _ Hwf2) in H2.
  cbn [fst] in H1, H2.
  assert (Hwf : well_formed (ccs1 ++ ccs2)) by (apply Forall_app; now split).
  rewrite (filter_ccs_well_formed _ _ Hwf). cbn [fst].
  rewrite filter_app. congruence.
Qed.

Lemma filter_ccs_app_witness :
  fst (filter_ccs (["5.0"; "7.0"] ++ ["8.6"; "3.5"]) []) = Return (["7.0"] ++ ["8.6"]).
Proof.
  exact (filter_ccs_app ["5.0"; "7.0"] ["8.6"; "3.5"] ["7.0"] ["8.6"] []
           eq_refl eq_refl).
Defined.

(** X8. On a list of architecture specs [filter_ccs] returns the input
    unchanged and writes nothing exactly when every spec has a generation
    digit of 6 or more. *)
Theorem filter_ccs_unchanged_iff (ccs : list string) (l : log) :
  well_formed ccs ->
  (filter_ccs ccs l = (Return ccs, l)
   <-> Forall (fun cc => 6 <= generation_digit cc) ccs).
Proof.
  intros Hwf. rewrite (filter_ccs_well_formed _ _ Hwf).
  assert (Hiff : Forall (fun cc => 6 <= generation_digit cc) ccs
                 <-> Forall (fun cc => supported cc = true) ccs).
  { rewrite !Forall_forall. split; intros H cc Hin; apply supported_ge, H, Hin. }
  rewrite Hiff. split.
  - intros H. apply filter_all. congruence.
  - intros H. unfold unsupported. rewrite (filter_none _ _ H).
    apply filter_all in H. rewrite H. cbn. now rewrite app_nil_r.
Qed.

Lemma filter_ccs_unchanged_iff_witness :
  filter_ccs ["6.0"; "7.5"; "9.0+PTX"] [] = (Return ["6.0"; "7.5"; "9.0+PTX"], []).
Proof.
  refine (proj2 (filter_ccs_unchanged_iff ["6.0"; "7.5"; "9.0+PTX"] [] _) _);
    repeat (apply Forall_cons; [first [reflexivity | vm_compute; discriminate]|]); apply Forall_nil.
Defined.

End FilterCcsMore.

(** ** Further properties across the methods *)

Section AcrossMethods.

Local Open Scope Z_scope.

Ltac run := unfold bind, warning, ret, raise, lift, call_super_is_compatible.

(** X9. The check and the filter use one threshold: on the primary
    toolchain, for a device whose generation is the digit a spec starts
    with, [filter_ccs] prunes the spec exactly when [is_compatible] fails
    with the Pascal warning. *)
Theorem filter_ccs_agrees_with_pascal_rule
  (E : env) (torch : torch_facts) (verbose : bool) (l : log)
  (c : ascii) (s : string) :
  torch_module E = Some torch ->
  is_rocm_pytorch E = false ->
  cuda_is_available torch = true ->
  is_decimal_digit c = true ->
  device_major torch = digit_value c ->
  (fst (filter_ccs [String c s] l) = Return []
   <-> is_compatible E verbose l
       = (Return false,
          (l ++ ["NVIDIA Inference is only supported on Pascal and newer architectures"])
          ++ snd (super_is_compatible E verbose))).
Proof.
  intros Ht Hrocm Hcuda Hc Hgen.
  assert (Hwf : well_formed [String c s]) by (repeat constructor; exact Hc).
  rewrite (filter_ccs_well_formed _ _ Hwf). cbn [fst filter].
  unfold supported. cbn [generation_digit]. rewrite <- Hgen.
  unfold is_compatible, import_torch. rewrite Ht, Hrocm, Hcuda. cbn [negb andb]. run.
  destruct (installed_cuda_version E) as [sys_cuda_major minor].
  destruct (super_is_compatible E verbose) as [super_okay ws]. cbn [snd].
  rewrite (Z.leb_antisym (device_major torch) 6).
  destruct (Z.ltb_spec (device_major torch) 6) as [Hlt|Hge]; cbn [negb].
  - destruct (Z.leb_spec 8 (device_major torch)) as [H8|_]; [lia|].
    rewrite andb_false_r. split; reflexivity.
  - split; [discriminate|]. intros H. exfalso.
    destruct (8 <=? device_major torch);
      [destruct ((version_cuda_major torch <? 11) || (sys_cuda_major <? 11))|];
      injection H as _ H; apply app_inv_tail in H;
      first [ apply app_inv_head in H; discriminate
            | apply (f_equal (@List.length string)) in H;
              rewrite length_app in H; cbn in H; lia ].
Qed.

Lemma filter_ccs_agrees_with_pascal_rule_witness :
  fst (filter_ccs ["5.2"] []) = Return []
  <-> is_compatible (sample_env (Some (sample_torch true 5)) false 12) true []
      = (Return false,
         ([] ++ ["NVIDIA Inference is only supported on Pascal and newer architectures"])
         ++ []).
Proof.
  exact (filter_ccs_agrees_with_pascal_rule
           (sample_env (Some (sample_torch true 5)) false 12)
           (sample_torch true 5) true [] "5"%char ".2"
           eq_refl eq_refl eq_refl eq_refl eq_refl).
Defined.

Lemma append_inv_head (p a b : string) : p +++ a = p +++ b -> a = b.
Proof.
  induction p as [|c p IH]; cbn; [trivial|].
  intros H. apply IH. congruence.
Qed.

Lemma under_injective (p a b : string) : under p a = under p b -> a = b.
Proof.
  unfold under. intros H. apply append_inv_head in H.
  cbn in H. congruence.
Qed.

Lemma NoDup_map_under (p : string) (rels : list string) :
  NoDup rels -> NoDup (map (under p) rels).
Proof.
  induction 1 as [|rel rels Hnotin _ IH]; cbn; constructor; [|exact IH].
  intros Hin. apply in_map_iff in Hin. destruct Hin as (rel' & Heq & Hin).
  apply under_injective in Heq. now subst rel'.
Qed.

Lemma NoDup_baseline : NoDup baseline.
Proof.
  assert (H : nodup string_dec baseline = baseline) by (vm_compute; reflexivity).
  rewrite <- H. apply NoDup_nodup.
Qed.

Lemma NoDup_include_dirs : NoDup include_dirs.
Proof.
  assert (H : nodup string_dec include_dirs = include_dirs) by (vm_compute; reflexivity).
  rewrite <- H. apply NoDup_nodup.
Qed.

(** X10. On the primary toolchain [sources] raises [NameError] for the
    name [torch] in every environment, with [torch] importable or not,
    with or without a device and whatever its generation is, and it does
    so before it writes a warning. *)
Theorem sources_primary_raises_name_error (E : env) (l : log) :
  is_rocm_pytorch E = false ->
  sources E l = (Raise (NameError "torch"), l).
Proof. apply sources_primary_toolchain. Qed.

Lemma sources_primary_raises_name_error_witness :
  sources (sample_env (Some (sample_torch true 7)) false 12) ["earlier"]
  = (Raise (NameError "torch"), ["earlier"]).
Proof.
  exact (sources_primary_raises_name_error
           (sample_env (Some (sample_torch true 7)) false 12) ["earlier"] eq_refl).
Defined.

(** X11. Whenever [sources] returns, the alternate toolchain is active,
    the list is the nine baseline files under the prefix, without
    duplicates, and no warning was written: the two generation-8 files are
    never part of a returned list. *)
Theorem sources_returns_baseline_only (E : env) (l l' : log) (paths : list string) :
  sources E l = (Return paths, l') ->
  is_rocm_pytorch E = true
  /\ paths = map (under (get_prefix E)) baseline
  /\ l' = l
  /\ NoDup paths
  /\ List.length paths = 9%nat
  /\ (forall rel, In rel generation_8_sources -> ~ In (under (get_prefix E) rel) paths).
Proof.
  intros H. destruct (is_rocm_pytorch E) eqn:Hrocm.
  - rewrite (sources_in_rocm module_scope E l Hrocm : sources E l = _) in H.
    assert (Hp : paths = map (under (get_prefix E)) baseline) by congruence.
    assert (Hl : l' = l) by congruence. subst paths l'.
    split; [reflexivity|]. split; [reflexivity|]. split; [reflexivity|].
    split; [apply NoDup_map_under, NoDup_baseline|].
    split; [now rewrite length_map|].
    intros rel Hrel Hin. apply in_map_iff in Hin.
    destruct Hin as (rel' & Heq & Hin). apply under_injective in Heq. subst rel'.
    cbn in Hrel, Hin.
    repeat (destruct Hrel as [<-|Hrel];
            [repeat (destruct Hin as [Hin|Hin]; [discriminate|]); exact Hin|]).
    exact Hrel.
  - rewrite (sources_primary_toolchain E l Hrocm) in H. discriminate.
Qed.

Lemma sources_returns_baseline_only_witness :
  is_rocm_pytorch rocm_generation_8 = true
  /\ map (under "deepspeed") baseline
     = map (under (get_prefix rocm_generation_8)) baseline
  /\ @nil string = []
  /\ NoDup (map (under "deepspeed") baseline)
  /\ List.length (map (under "deepspeed") baseline) = 9%nat
  /\ (forall rel, In rel generation_8_sources ->
                  ~ In (under (get_prefix rocm_generation_8) rel)
                      (map (under "deepspeed") baseline)).
Proof.
  exact (sources_returns_baseline_only rocm_generation_8 [] []
           (map (under "deepspeed") baseline) eq_refl).
Defined.

(** X12. [include_paths] returns in every environment, also where
    [sources] raises: seven distinct directories under the prefix, no
    warning, and the same list in every environment that resolves the same
    prefix, whatever the toolchain, the device and the versions are. *)
Theorem include_paths_depends_on_prefix_only (E : env) (l : log) :
  exists paths,
    include_paths E l = (Return paths, l)
    /\ paths = map (under (get_prefix E)) include_dirs
    /\ List.length paths = 7%nat
    /\ NoDup paths
    /\ forall E' l', get_prefix E' = get_prefix E ->
                     include_paths E' l' = (Return paths, l').
Proof.
  exists (map (under (get_prefix E)) include_dirs).
  assert (Hrun : forall E0 l0,
             include_paths E0 l0 = (Return (map (under (get_prefix E0)) include_dirs), l0)).
  { intros E0 l0. unfold include_paths, ret. fold include_dirs.
    now rewrite join_include_dirs. }
  split; [apply Hrun|]. split; [reflexivity|].
  split; [now rewrite length_map|].
  split; [apply NoDup_map_under, NoDup_include_dirs|].
  intros E' l' Heq. now rewrite Hrun, Heq.
Qed.

End AcrossMethods.
